(** * virtual-kubelet-apptainer: the provider, its node configuration and
      its pod lifecycle surface

    A shallow embedding of [internal/provider] (provider.go, node.go),
    [internal/metrics] and the provider factory of
    [cmd/virtual-kubelet/main.go].

    Conventions
    - a Go [string] is a [string]; [int] and [int32] are [Z], the
      conversion [int32(x)] is written out as a wrap-around;
    - a Go map is a [gmap]; a map that may be [nil] and is written to is
      an [option (gmap _ _)], because assigning into a nil map panics;
    - a pointer that may be [nil] is an [option];
    - a Go [error] is an [option ErrKind], [None] being [nil];
    - code that can panic returns an [outcome]. *)

From Stdlib Require Import ZArith String List Lia.
From stdpp Require Import base option gmap strings list fin_maps.

Local Open Scope string_scope.
Local Open Scope Z_scope.

(** ** Go runtime: panics *)

Inductive panic : Type :=
  | NilPointerDereference
  | AssignmentToNilMap
  | CannotParseQuantity (s : string).

Inductive outcome (A : Type) : Type :=
  | Returns (a : A)
  | Panics (why : panic).

Arguments Returns {A} a.
Arguments Panics {A} why.

Definition obind {A B : Type} (c : outcome A) (k : A -> outcome B) : outcome B :=
  match c with
  | Returns a => k a
  | Panics why => Panics why
  end.

Notation "'do!' x <- c ; k" := (obind c (fun x => k))
  (at level 10, x name, c at level 100, k at level 200).

(** ** Errors

    The source only ever returns [nil]; the kinds are the taxonomy the
    design names, so that a returned error can be compared with it. *)

Inductive ErrKind : Type :=
  | Conflict
  | StaleGeneration
  | BackendTransient
  | BackendPermanent
  | BackendUnreachable
  | NotFound
  | InvalidSyntax.

Definition error : Type := option ErrKind.

(** ** The process environment: [os.Getenv] is the empty string for an unset name *)

Definition Getenv (env : gmap string string) (key : string) : string :=
  default EmptyString (env !! key).

(** [int32(x)] for an [int] [x] *)
Definition int32 (x : Z) : Z := (x + 2 ^ 31) mod 2 ^ 32 - 2 ^ 31.

(** ** package metrics *)

Record ApptaienrMetricsProvider : Type := MkMetrics { }.

Definition NewApptaienrMetricsProver : ApptaienrMetricsProvider := MkMetrics.

(** ** package provider: the provider struct *)

Definition ResourceCPU : string := "cpu".
Definition ResourceMemory : string := "memory".
Definition ResourcePods : string := "pods".
Definition gpuResourceName : string := "nvidia.com/gpu".

Record ApptainerProvider : Type := MkProvider {
  nodeName : string;
  operatingSystem : string;
  cpu : string;
  memory : string;
  pods : string;
  gpu : string;
  internalIP : string;
  daemonEndpointPort : Z;
  metricsProvider : option ApptaienrMetricsProvider
}.

(** [&ApptainerProvider{}]: every field at its zero value *)
Definition zeroProvider : ApptainerProvider :=
  MkProvider EmptyString EmptyString EmptyString EmptyString EmptyString EmptyString EmptyString 0 None.

Definition set_nodeName v p := MkProvider v (operatingSystem p) (cpu p) (memory p) (pods p) (gpu p) (internalIP p) (daemonEndpointPort p) (metricsProvider p).
Definition set_operatingSystem v p := MkProvider (nodeName p) v (cpu p) (memory p) (pods p) (gpu p) (internalIP p) (daemonEndpointPort p) (metricsProvider p).
Definition set_cpu v p := MkProvider (nodeName p) (operatingSystem p) v (memory p) (pods p) (gpu p) (internalIP p) (daemonEndpointPort p) (metricsProvider p).
Definition set_memory v p := MkProvider (nodeName p) (operatingSystem p) (cpu p) v (pods p) (gpu p) (internalIP p) (daemonEndpointPort p) (metricsProvider p).
Definition set_pods v p := MkProvider (nodeName p) (operatingSystem p) (cpu p) (memory p) v (gpu p) (internalIP p) (daemonEndpointPort p) (metricsProvider p).
Definition set_gpu v p := MkProvider (nodeName p) (operatingSystem p) (cpu p) (memory p) (pods p) v (internalIP p) (daemonEndpointPort p) (metricsProvider p).
Definition set_internalIP v p := MkProvider (nodeName p) (operatingSystem p) (cpu p) (memory p) (pods p) (gpu p) v (daemonEndpointPort p) (metricsProvider p).
Definition set_daemonEndpointPort v p := MkProvider (nodeName p) (operatingSystem p) (cpu p) (memory p) (pods p) (gpu p) (internalIP p) v (metricsProvider p).
Definition set_metricsProvider v p := MkProvider (nodeName p) (operatingSystem p) (cpu p) (memory p) (pods p) (gpu p) (internalIP p) (daemonEndpointPort p) v.

(** [setupNodeCapacity]: the defaults, then one override per non-empty
    quota variable; the error it returns is [nil] on its only path. *)
Definition setupNodeCapacity (env : gmap string string) (p : ApptainerProvider)
  : ApptainerProvider * error :=
  let p := set_cpu "64" p in
  let p := set_memory "512Gi" p in
  let p := set_pods "640" p in
  let cpuQuota := Getenv env "APPTAINER_QUOTA_CPU" in
  let p := if decide (cpuQuota ≠ EmptyString) then set_cpu cpuQuota p else p in
  let memoryQuota := Getenv env "APPTAINER_QUOTA_MEMORY" in
  let p := if decide (memoryQuota ≠ EmptyString) then set_memory memoryQuota p else p in
  let podsQuota := Getenv env "APPTAINER_QUOTA_POD" in
  let p := if decide (podsQuota ≠ EmptyString) then set_pods podsQuota p else p in
  let gpuQuota := Getenv env "APPTAINER_QUOTA_GPU" in
  let p := if decide (gpuQuota ≠ EmptyString) then set_gpu gpuQuota p else p in
  (p, None).

(** [NewApptainerProvider]: a nil provider exactly on the error branch *)
Definition NewApptainerProvider (env : gmap string string)
    (nodeName operatingSystem internalIP : string) (daemonEndpointPort : Z)
  : option ApptainerProvider * error :=
  let p := zeroProvider in
  let p := set_nodeName nodeName p in
  let p := set_operatingSystem operatingSystem p in
  let p := set_internalIP internalIP p in
  let p := set_daemonEndpointPort daemonEndpointPort p in
  match setupNodeCapacity env p with
  | (_, Some err) => (None, Some err)
  | (p, None) =>
      let p := set_metricsProvider (Some NewApptaienrMetricsProver) p in
      (Some p, None)
  end.

(** ** package provider: node.go *)

(** ** Kubernetes API objects, as far as the provider touches them *)

Inductive ConditionStatus : Type := ConditionTrue | ConditionFalse | ConditionUnknown.

Record NodeAddress : Type := MkNodeAddress {
  AddrType : string;
  Address : string
}.

Section Node.

(** What the provider takes from its libraries:
    [resource.ParseQuantity] of k8s.io/apimachinery ([None] is its error,
    on which [resource.MustParse] panics), the wall clock behind
    [metav1.Now], [strings.ToLower] and [strconv.Atoi]. *)
Variable Quantity : Type.
Variable ParseQuantity : string -> option Quantity.
Variable Time : Type.
Variable ToLower : string -> string.
Variable Atoi : string -> option Z.

Record NodeCondition : Type := MkNodeCondition {
  CondType : string;
  CondStatus : ConditionStatus;
  LastHeartbeatTime : Time;
  LastTransitionTime : Time;
  Reason : string;
  Message : string
}.

Record NodeStatus : Type := MkNodeStatus {
  Capacity : gmap string Quantity;
  Allocatable : gmap string Quantity;
  Conditions : list NodeCondition;
  Addresses : list NodeAddress;
  KubeletEndpointPort : Z;
  NodeInfoOperatingSystem : string
}.

(** [Labels] is [None] for a nil map. *)
Record Node : Type := MkNode {
  Labels : option (gmap string string);
  Status : NodeStatus
}.

Definition MustParse (s : string) : outcome Quantity :=
  match ParseQuantity s with
  | Some q => Returns q
  | None => Panics (CannotParseQuantity s)
  end.

(** Reading a field through a receiver that may be nil *)
Definition deref (p : option ApptainerProvider) : outcome ApptainerProvider :=
  match p with
  | Some r => Returns r
  | None => Panics NilPointerDereference
  end.

(** [capacity]: the three fixed resources, and the GPU one when the
    [gpu] field is not empty. *)
Definition capacity (p : option ApptainerProvider) : outcome (gmap string Quantity) :=
  do! r <- deref p;
  do! c <- MustParse (cpu r);
  do! m <- MustParse (memory r);
  do! n <- MustParse (pods r);
  let resourceList : gmap string Quantity :=
    <[ResourcePods := n]> (<[ResourceMemory := m]> (<[ResourceCPU := c]> ∅)) in
  if decide (gpu r ≠ EmptyString) then
    do! g <- MustParse (gpu r);
    Returns (<[gpuResourceName := g]> resourceList)
  else Returns resourceList.

(** [nodeConditions]: [now k] is the [k]-th reading of [metav1.Now()]
    within the call, in the order the literal evaluates them. *)
Definition nodeConditions (now : nat -> Time) : list NodeCondition :=
  [ MkNodeCondition "Ready" ConditionTrue (now 0%nat) (now 1%nat)
      "KubeletReady" "kubelet is ready.";
    MkNodeCondition "OutOfDisk" ConditionFalse (now 2%nat) (now 3%nat)
      "KubeletHasSufficientDisk" "kubelet has sufficient disk space available";
    MkNodeCondition "MemoryPressure" ConditionFalse (now 4%nat) (now 5%nat)
      "KubeletHasSufficientMemory" "kubelet has sufficient memory available";
    MkNodeCondition "DiskPressure" ConditionFalse (now 6%nat) (now 7%nat)
      "KubeletHasNoDiskPressure" "kubelet has no disk pressure";
    MkNodeCondition "NetworkUnavailable" ConditionFalse (now 8%nat) (now 9%nat)
      "RouteCreated" "RouteController created a route" ].

Definition nodeAddresses (r : ApptainerProvider) : list NodeAddress :=
  [ MkNodeAddress "InternalIP" (internalIP r) ].

Definition nodeDaemonEndpoints (r : ApptainerProvider) : Z :=
  daemonEndpointPort r.

(** [m[k] = v] on a map that may be nil *)
Definition setLabel (k v : string) (labels : option (gmap string string))
  : outcome (option (gmap string string)) :=
  match labels with
  | Some m => Returns (Some (<[k := v]> m))
  | None => Panics AssignmentToNilMap
  end.

(** [ConfigureNode], statement by statement.  [capacity] is called
    twice, once for each of the two fields. *)
Definition ConfigureNode (p : option ApptainerProvider) (now : nat -> Time)
    (node : Node) : outcome Node :=
  do! cap <- capacity p;
  do! alloc <- capacity p;
  do! r <- deref p;
  let conds := nodeConditions now in
  let addrs := nodeAddresses r in
  let port := nodeDaemonEndpoints r in
  let status := MkNodeStatus cap alloc conds addrs port (operatingSystem r) in
  do! l <- setLabel "alpha.service-controller.kubernetes.io/exclude-balancer" "true"
             (Labels node);
  do! l <- setLabel "node.kubernetes.io/exclude-from-external-load-balancers" "true" l;
  let os := ToLower (operatingSystem r) in
  do! l <- setLabel "beta.kubernetes.io/os" os l;
  do! l <- setLabel "kubernetes.io/os" os l;
  Returns (MkNode l status).

(** ** cmd/virtual-kubelet: the provider factory handed to
    [nodeutil.NewNode]

    [listenPort], [nodeName] and [operatingSystem] are the package
    variables (10250, "vk-apptainer", "Linux" unless a flag changed
    them).  The factory calls [ConfigureNode] on the provider before
    it looks at the error. *)
Definition providerFactory (env : gmap string string) (listenPort : Z)
    (nodeName operatingSystem : string) (now : nat -> Time) (cfgNode : Node)
  : outcome (option ApptainerProvider * error * Node) :=
  let port := Getenv env "KUBELET_PORT" in
  let parsed : Z + ErrKind :=
    if decide (port ≠ EmptyString) then
      match Atoi port with
      | Some n => inl n
      | None => inr InvalidSyntax
      end
    else inl listenPort in
  match parsed with
  | inr err => Returns (None, Some err, cfgNode)
  | inl listenPort =>
      let '(p, err) :=
        NewApptainerProvider env nodeName operatingSystem
          (Getenv env "VKUBELET_POD_IP") (int32 listenPort) in
      do! node <- ConfigureNode p now cfgNode;
      Returns (p, err, node)
  end.

End Node.

Arguments MustParse {Quantity} ParseQuantity s.
Arguments capacity {Quantity} ParseQuantity p.
Arguments nodeConditions {Time} now.
Arguments ConfigureNode {Quantity} ParseQuantity {Time} ToLower p now node.
Arguments providerFactory {Quantity} ParseQuantity {Time} ToLower Atoi
  env listenPort nodeName operatingSystem now cfgNode.
Arguments MkNodeCondition {Time}.
Arguments MkNodeStatus {Quantity Time}.
Arguments MkNode {Quantity Time}.
Arguments Capacity {Quantity Time} n.
Arguments Allocatable {Quantity Time} n.
Arguments Conditions {Quantity Time} n.
Arguments Addresses {Quantity Time} n.
Arguments KubeletEndpointPort {Quantity Time} n.
Arguments NodeInfoOperatingSystem {Quantity Time} n.
Arguments Labels {Quantity Time} n.
Arguments Status {Quantity Time} n.

(** ** package provider: provider.go, the pod lifecycle surface *)

Inductive PodPhase : Type :=
  | PodPending | PodRunning | PodSucceeded | PodFailed | PodUnknown.

Record PodStatus : Type := MkPodStatus { Phase : PodPhase }.

Record Pod : Type := MkPod {
  Namespace : string;
  Name : string;
  PodStat : PodStatus
}.

Definition identity (pod : Pod) : string * string := (Namespace pod, Name pod).

(** What a method of the provider can read or change: the provider
    struct behind the receiver, and the calls made so far to the
    [NotifyPods] callback that the comment of [DeletePod] speaks of.  The
    struct has no field for such a callback. *)
Record World : Type := MkWorld {
  provider : ApptainerProvider;
  notifyPodsCalls : list Pod
}.

Definition initWorld (p : ApptainerProvider) : World := MkWorld p [].

Definition Action (A : Type) : Type := World -> A * World.

Definition ret {A : Type} (a : A) : Action A := fun w => (a, w).

(** The bodies are [return nil] and [return nil, nil]. *)
Definition CreatePod (pod : Pod) : Action error := ret None.

Definition UpdatePod (pod : Pod) : Action error := ret None.

Definition DeletePod (pod : Pod) : Action error := ret None.

Definition GetPod (namespace name : string) : Action (option Pod * error) :=
  ret (None, None).

Definition GetPodStatus (namespace name : string)
  : Action (option PodStatus * error) :=
  ret (None, None).

(** a nil slice is the empty list *)
Definition GetPods : Action (list Pod * error) := ret ([], None).

Definition RunInContainer (namespace podName containerName : string)
    (cmd : list string) : Action error :=
  ret None.

(** Sequences of calls from the orchestrator *)
Inductive Call : Type :=
  | CallCreatePod (pod : Pod)
  | CallUpdatePod (pod : Pod)
  | CallDeletePod (pod : Pod)
  | CallGetPod (namespace name : string)
  | CallGetPodStatus (namespace name : string)
  | CallGetPods.

Inductive Reply : Type :=
  | ReplyError (err : error)
  | ReplyPod (pod : option Pod) (err : error)
  | ReplyStatus (status : option PodStatus) (err : error)
  | ReplyPods (pods : list Pod) (err : error).

Definition step (c : Call) : Action Reply := fun w =>
  match c with
  | CallCreatePod pod => let '(e, w) := CreatePod pod w in (ReplyError e, w)
  | CallUpdatePod pod => let '(e, w) := UpdatePod pod w in (ReplyError e, w)
  | CallDeletePod pod => let '(e, w) := DeletePod pod w in (ReplyError e, w)
  | CallGetPod ns n => let '((p, e), w) := GetPod ns n w in (ReplyPod p e, w)
  | CallGetPodStatus ns n =>
      let '((s, e), w) := GetPodStatus ns n w in (ReplyStatus s e, w)
  | CallGetPods => let '((l, e), w) := GetPods w in (ReplyPods l e, w)
  end.

Fixpoint exec (calls : list Call) : Action (list Reply) := fun w =>
  match calls with
  | [] => ([], w)
  | c :: rest =>
      let '(r, w) := step c w in
      let '(rs, w) := exec rest w in
      (r :: rs, w)
  end.

(** The world after a sequence of calls *)
Definition after (calls : list Call) (w : World) : World := (exec calls w).2.

Definition reportsRunning (r : option PodStatus * error) : Prop :=
  exists st, r.1 = Some st /\ Phase st = PodRunning.

Definition neverCreated (calls : list Call) (id : string * string) : Prop :=
  forall pod, In (CallCreatePod pod) calls -> identity pod <> id.

(** ** The design's record store, for comparison

    Follows the design document, not the source: the synchronous part of
    its operation dispatcher (Create inserts a [Pending] record unless a
    non-terminal one exists, Delete marks an existing, not yet
    [Terminated] record [Terminating]; each accepted intent bumps the
    generation).  It is only used to say which identities the design
    regards as mapped to a non-terminal record after a sequence of
    calls, before any asynchronous task has run. *)
Module Design.

Inductive LifecycleState : Type :=
  | Pending | Creating | Running | Updating | Terminating | Terminated | Failed.

Definition terminal (s : LifecycleState) : bool :=
  match s with
  | Terminated | Failed => true
  | _ => false
  end.

Record PodRecord : Type := MkRecord {
  lifecycleState : LifecycleState;
  remoteHandle : option nat;
  generation : nat
}.

Definition nonTerminal (r : option PodRecord) : bool :=
  match r with
  | Some rec => negb (terminal (lifecycleState rec))
  | None => false
  end.

Definition nextGeneration (r : option PodRecord) : nat :=
  match r with
  | Some rec => S (generation rec)
  | None => 1%nat
  end.

Definition Create (id : string * string) (store : gmap (string * string) PodRecord)
  : error * gmap (string * string) PodRecord :=
  if nonTerminal (store !! id) then (Some Conflict, store)
  else (None, <[id := MkRecord Pending None (nextGeneration (store !! id))]> store).

Definition Delete (id : string * string) (store : gmap (string * string) PodRecord)
  : error * gmap (string * string) PodRecord :=
  match store !! id with
  | None => (None, store)
  | Some rec =>
      match lifecycleState rec with
      | Terminated => (None, store)
      | _ => (None, <[id := MkRecord Terminating (remoteHandle rec)
                             (S (generation rec))]> store)
      end
  end.

Definition Query (id : string * string) (store : gmap (string * string) PodRecord)
  : option PodRecord * error :=
  match store !! id with
  | Some rec => (Some rec, None)
  | None => (None, Some NotFound)
  end.

Definition apply (store : gmap (string * string) PodRecord) (c : Call)
  : gmap (string * string) PodRecord :=
  match c with
  | CallCreatePod pod => (Create (identity pod) store).2
  | CallDeletePod pod => (Delete (identity pod) store).2
  | _ => store
  end.

Definition storeAfter (calls : list Call) : gmap (string * string) PodRecord :=
  foldl apply ∅ calls.

End Design.

(** ** The claims of the design that the stub does not meet, as
    propositions over the source's methods *)

(** Create on an identity that the design maps to a non-terminal record
    answers [Conflict] and changes nothing. *)
Definition CreateRejectsDuplicate : Prop :=
  forall (calls : list Call) (pod : Pod) (w : World),
    Design.nonTerminal (Design.storeAfter calls !! identity pod) = true ->
    CreatePod pod (after calls w) = (Some Conflict, after calls w).

(** A query for an identity that was never created answers [NotFound]. *)
Definition QueryUnknownIsNotFound : Prop :=
  forall (calls : list Call) (ns name : string) (w : World),
    neverCreated calls (ns, name) ->
    (GetPod ns name (after calls w)).1.2 = Some NotFound /\
    (GetPodStatus ns name (after calls w)).1.2 = Some NotFound.

(** After an accepted Create, some later status query reports Running. *)
Definition CreateEventuallyRunning : Prop :=
  forall (pod : Pod) (w : World),
    (CreatePod pod w).1 = None ->
    exists later : list Call,
      reportsRunning
        (GetPodStatus (Namespace pod) (Name pod)
           (after (CallCreatePod pod :: later) w)).1.

(** ** Inputs used in the examples *)

Definition podA : Pod := MkPod "default" "a" (MkPodStatus PodPending).

Definition world0 : World :=
  initWorld (MkProvider "vk-apptainer" "Linux" "64" "512Gi" "640" EmptyString "10.0.0.1" 10250
               (Some NewApptaienrMetricsProver)).

(** A stand-in for [resource.ParseQuantity] in the examples: it accepts
    the strings that start with a digit and keeps them as they are. *)
Definition sampleParse (s : string) : option string :=
  match s with
  | String c _ =>
      if ((48 <=? Ascii.nat_of_ascii c) && (Ascii.nat_of_ascii c <=? 57))%nat
      then Some s else None
  | EmptyString => None
  end.

Definition sampleEnv : gmap string string :=
  <["APPTAINER_QUOTA_GPU" := "2"]> (<["APPTAINER_QUOTA_CPU" := "8"]> ∅).

Definition sampleList : gmap string string :=
  <["nvidia.com/gpu" := "2"]>
    (<["pods" := "640"]> (<["memory" := "512Gi"]> (<["cpu" := "8"]> ∅))).

Definition sampleNode : Node string nat :=
  MkNode (Some (<["type" := "virtual-kubelet"]> ∅)) (MkNodeStatus ∅ ∅ [] [] 0 EmptyString).

Definition sampleConfigured : Node string nat :=
  match ConfigureNode sampleParse (fun s => s) (Some (provider world0))
          (fun k => k) sampleNode with
  | Returns n => n
  | Panics _ => sampleNode
  end.

(** The value a quota field takes: the variable when it is not empty,
    the default otherwise. *)
Definition orDefault (v dflt : string) : string :=
  if decide (v ≠ EmptyString) then v else dflt.

(** ** cmd/virtual-kubelet: the taint of the node *)

(** [envOrDefault]: [os.LookupEnv] tells a variable that is set, even to
    the empty string, from one that is not. *)
Definition envOrDefault (env : gmap string string) (key defaultValue : string)
  : string :=
  match env !! key with
  | Some v => v
  | None => defaultValue
  end.

Definition TaintEffectNoSchedule : string := "NoSchedule".
Definition TaintEffectNoExecute : string := "NoExecute".
Definition TaintEffectPreferNoSchedule : string := "PreferNoSchedule".

(** The package variables, read from the environment at start-up *)
Definition taintKey (env : gmap string string) : string :=
  envOrDefault env "VKUBELET_TAINT_KEY" "virtual-kubelet.io/provider".

Definition taintEffect (env : gmap string string) : string :=
  envOrDefault env "VKUBELET_TAINT_EFFECT" TaintEffectNoSchedule.

Definition taintValue (env : gmap string string) : string :=
  envOrDefault env "VKUBELET_TAINT_VALUE" "apptainer".

Record Taint : Type := MkTaint {
  TaintKey : string;
  TaintValue : string;
  Effect : string
}.

(** [errdefs.InvalidInputf("taint effect %q is not supported", e)] *)
Inductive OptionError : Type :=
  | TaintEffectNotSupported (effect : string).

(** The "with taint" option of [run]: what it makes of
    [cfg.NodeSpec.Spec.Taints], and the error it returns. *)
Definition withTaint (env : gmap string string) (disableTaint : bool)
    (taints : list Taint) : list Taint * option OptionError :=
  if disableTaint then (taints, None)
  else
    let key := taintKey env in
    let value := taintValue env in
    let effect := taintEffect env in
    if decide (effect = "NoSchedule") then
      ((taints ++ [MkTaint key value TaintEffectNoSchedule])%list, None)
    else if decide (effect = "NoExecute") then
      ((taints ++ [MkTaint key value TaintEffectNoExecute])%list, None)
    else if decide (effect = "PreferNoSchedule") then
      ((taints ++ [MkTaint key value TaintEffectPreferNoSchedule])%list, None)
    else (taints, Some (TaintEffectNotSupported effect)).

(** ** Helpers of the statements below *)

(** A reply that carries neither an error nor an object *)
Definition emptyReply (r : Reply) : bool :=
  match r with
  | ReplyError None => true
  | ReplyPod None None => true
  | ReplyStatus None None => true
  | ReplyPods [] None => true
  | _ => false
  end.

(** The label keys [ConfigureNode] writes *)
Definition configuredLabels : list string :=
  [ "alpha.service-controller.kubernetes.io/exclude-balancer";
    "node.kubernetes.io/exclude-from-external-load-balancers";
    "beta.kubernetes.io/os";
    "kubernetes.io/os" ].

(** A stand-in for [strconv.Atoi] in the examples: unsigned decimals *)
Definition digitValue (c : Ascii.ascii) : option Z :=
  let n := Z.of_nat (Ascii.nat_of_ascii c) in
  if (48 <=? n) && (n <=? 57) then Some (n - 48) else None.

Fixpoint sampleDigits (s : string) (acc : Z) : option Z :=
  match s with
  | EmptyString => Some acc
  | String c rest =>
      match digitValue c with
      | Some d => sampleDigits rest (10 * acc + d)
      | None => None
      end
  end.

Definition sampleAtoi (s : string) : option Z :=
  match s with
  | EmptyString => None
  | _ => sampleDigits s 0
  end.

Definition sampleBadQuota : ApptainerProvider :=
  MkProvider "vk-apptainer" "Linux" "64" "lots" "640" EmptyString "10.0.0.1" 10250
    (Some NewApptaienrMetricsProver).

Definition sampleNilLabels : Node string nat :=
  MkNode None (MkNodeStatus ∅ ∅ [] [] 0 EmptyString).

Definition sampleEnvNoise : gmap string string :=
  <["HOME" := "/root"]> (<["APPTAINER_QUOTA_MEMORY" := EmptyString]> sampleEnv).

Definition sampleEnvEmptyEffect : gmap string string :=
  <["VKUBELET_TAINT_EFFECT" := EmptyString]> ∅.

Definition sampleEnvBadPort : gmap string string :=
  <["KUBELET_PORT" := "https"]> ∅.

Definition sampleEnvPort : gmap string string :=
  <["VKUBELET_POD_IP" := "10.0.0.7"]> (<["KUBELET_PORT" := "10255"]> ∅).

Definition sampleQuotaProvider : ApptainerProvider :=
  MkProvider "vk-apptainer" "Linux" "8" "512Gi" "640" "2" "10.0.0.1" 10250
    (Some NewApptaienrMetricsProver).

(** A stand-in for [strings.ToLower] in the examples, on ASCII letters *)
Definition lowerAscii (c : Ascii.ascii) : Ascii.ascii :=
  let n := Ascii.nat_of_ascii c in
  if ((65 <=? n) && (n <=? 90))%nat then Ascii.ascii_of_nat (n + 32) else c.

Fixpoint sampleToLower (s : string) : string :=
  match s with
  | EmptyString => EmptyString
  | String c rest => String (lowerAscii c) (sampleToLower rest)
  end.

Definition sampleConfiguredLower : Node string nat :=
  match ConfigureNode sampleParse sampleToLower (Some (provider world0))
          (fun k => k) sampleNode with
  | Returns n => n
  | Panics _ => sampleNode
  end.

Definition sampleFactoryProvider : ApptainerProvider :=
  MkProvider "vk-apptainer" "Linux" "64" "512Gi" "640" EmptyString "10.0.0.7" 10255
    (Some NewApptaienrMetricsProver).

Definition sampleFactoryNode : Node string nat :=
  match ConfigureNode sampleParse sampleToLower (Some sampleFactoryProvider)
          (fun k => k) sampleNode with
  | Returns n => n
  | Panics _ => sampleNode
  end.

(** * Facts *)

(** ** The lifecycle surface never touches the world *)

Lemma step_world (c : Call) (w : World) : (step c w).2 = w.
Proof. destruct c; reflexivity. Qed.

Lemma exec_world (calls : list Call) (w : World) : (exec calls w).2 = w.
Proof.
  revert w. induction calls as [|c rest IH]; intros w; [reflexivity|].
  simpl. pose proof (step_world c w) as Hs.
  destruct (step c w) as [r w1]. simpl in Hs. subst w1.
  specialize (IH w). destruct (exec rest w) as [rs w2]. simpl in *. exact IH.
Qed.

Lemma after_id (calls : list Call) (w : World) : after calls w = w.
Proof. apply exec_world. Qed.

Lemma exec_length (calls : list Call) (w : World) :
  length (exec calls w).1 = length calls.
Proof.
  revert w. induction calls as [|c rest IH]; intros w; [reflexivity|].
  simpl. destruct (step c w) as [r w1]. specialize (IH w1).
  destruct (exec rest w1) as [rs w2]. simpl in *. by rewrite IH.
Qed.

(** C1, as stated, fails: after [CreatePod] of pod "default/a" the
    design's store maps that identity to a [Pending] record, and a second
    [CreatePod] of the same pod returns nil, not [Conflict]. *)
Lemma CreatePod_accepts_duplicate :
  Design.nonTerminal (Design.storeAfter [CallCreatePod podA] !! identity podA) = true /\
  CreatePod podA (after [CallCreatePod podA] world0) = (None, world0) /\
  ~ CreateRejectsDuplicate.
Proof.
  assert (Hpre : Design.nonTerminal
            (Design.storeAfter [CallCreatePod podA] !! identity podA) = true).
  { unfold Design.storeAfter, Design.apply, Design.Create. simpl.
    rewrite lookup_empty. simpl. rewrite lookup_insert_eq. reflexivity. }
  split; [exact Hpre|]. split; [reflexivity|].
  intros claim. specialize (claim [CallCreatePod podA] podA world0 Hpre).
  rewrite after_id in claim. discriminate claim.
Qed.

(** C1, amended: for every pod and after every sequence of calls,
    [CreatePod] returns nil and leaves the provider and everything else
    it could reach unchanged; it never answers [Conflict], and as the
    provider keeps no record there is none to overwrite. *)
Theorem CreatePod_always_nil (calls : list Call) (pod : Pod) (w : World) :
  CreatePod pod (after calls w) = (None, w) /\
  (CreatePod pod (after calls w)).1 <> Some Conflict /\
  (GetPods (after (calls ++ [CallCreatePod pod]) w)).1.1 = [].
Proof.
  rewrite !after_id. split; [reflexivity|]. split; [discriminate|reflexivity].
Qed.

(** C2: [DeletePod] is a no-op success on every pod in every state, so
    also when no record exists or the pod was deleted before; two calls
    in a row both return nil and change nothing. *)
Theorem DeletePod_idempotent (calls : list Call) (pod : Pod) (w : World) :
  DeletePod pod (after calls w) = (None, after calls w) /\
  exec [CallDeletePod pod; CallDeletePod pod] (after calls w)
    = ([ReplyError None; ReplyError None], after calls w) /\
  (DeletePod pod (DeletePod pod (after calls w)).2).1 = None.
Proof. repeat split. Qed.

(** C6, as stated, fails: [CreatePod] of pod "default/a" is accepted, and
    whatever calls follow, [GetPodStatus] for it returns a nil status and
    a nil error, never a Running one. *)
Lemma GetPodStatus_never_Running :
  (CreatePod podA world0).1 = None /\
  (forall later : list Call,
     (GetPodStatus "default" "a" (after (CallCreatePod podA :: later) world0)).1
       = (None, None)) /\
  ~ CreateEventuallyRunning.
Proof.
  split; [reflexivity|]. split; [reflexivity|].
  intros claim. destruct (claim podA world0 eq_refl) as [later [st [Hst _]]].
  discriminate Hst.
Qed.

(** C6, amended: after [CreatePod] of a pod is accepted, every later
    [GetPodStatus] for that pod, whatever calls come in between, returns a
    nil status and a nil error and changes nothing; none reports
    Running. *)
Theorem GetPodStatus_after_Create (pod : Pod) (later : list Call) (w : World) :
  (CreatePod pod w).1 = None /\
  GetPodStatus (Namespace pod) (Name pod) (after (CallCreatePod pod :: later) w)
    = ((None, None), w) /\
  ~ reportsRunning
      (GetPodStatus (Namespace pod) (Name pod)
         (after (CallCreatePod pod :: later) w)).1.
Proof.
  rewrite after_id. split; [reflexivity|]. split; [reflexivity|].
  intros [st [Hst _]]. discriminate Hst.
Qed.

(** C7, as stated, fails: with no call made before, the identity
    "default/a" was never created, and both [GetPod] and [GetPodStatus]
    return a nil result with a nil error, not [NotFound]. *)
Lemma GetPod_unknown_no_error :
  neverCreated [] ("default", "a") /\
  GetPod "default" "a" (after [] world0) = ((None, None), world0) /\
  GetPodStatus "default" "a" (after [] world0) = ((None, None), world0) /\
  ~ QueryUnknownIsNotFound.
Proof.
  assert (Hpre : neverCreated [] ("default", "a")) by (intros pod []).
  split; [exact Hpre|]. split; [reflexivity|]. split; [reflexivity|].
  intros claim. destruct (claim [] "default" "a" world0 Hpre) as [H _].
  discriminate H.
Qed.

(** C7, amended: for every identity that was never created, [GetPod] and
    [GetPodStatus] return a nil result together with a nil error and
    change nothing; no [NotFound] reaches the caller. *)
Theorem Query_unknown_returns_nil (calls : list Call) (ns name : string) (w : World) :
  neverCreated calls (ns, name) ->
  GetPod ns name (after calls w) = ((None, None), w) /\
  GetPodStatus ns name (after calls w) = ((None, None), w).
Proof. intros _. rewrite after_id. split; reflexivity. Qed.

Lemma Query_unknown_returns_nil_witness :
  neverCreated [CallCreatePod podA; CallDeletePod podA] ("default", "b") /\
  GetPod "default" "b" (after [CallCreatePod podA; CallDeletePod podA] world0)
    = ((None, None), world0) /\
  GetPodStatus "default" "b" (after [CallCreatePod podA; CallDeletePod podA] world0)
    = ((None, None), world0).
Proof.
  assert (Hpre : neverCreated [CallCreatePod podA; CallDeletePod podA] ("default", "b")).
  { intros pod [Hin | [Hin | []]]; [|discriminate Hin].
    injection Hin as <-. discriminate. }
  split; [exact Hpre|].
  exact (Query_unknown_returns_nil [CallCreatePod podA; CallDeletePod podA]
           "default" "b" world0 Hpre).
Defined.

(** ** Node capacity and configuration *)

Lemma setupNodeCapacity_nil (env : gmap string string) (p : ApptainerProvider) :
  (setupNodeCapacity env p).2 = None.
Proof. reflexivity. Qed.

Lemma setupNodeCapacity_fields (env : gmap string string) (p : ApptainerProvider) :
  let q := (setupNodeCapacity env p).1 in
  cpu q = orDefault (Getenv env "APPTAINER_QUOTA_CPU") "64" /\
  memory q = orDefault (Getenv env "APPTAINER_QUOTA_MEMORY") "512Gi" /\
  pods q = orDefault (Getenv env "APPTAINER_QUOTA_POD") "640" /\
  gpu q = orDefault (Getenv env "APPTAINER_QUOTA_GPU") (gpu p).
Proof.
  unfold setupNodeCapacity, orDefault. simpl.
  repeat case_decide; simpl; repeat split; reflexivity.
Qed.

Lemma NewApptainerProvider_fields (env : gmap string string)
    (nn os ip : string) (port : Z) :
  exists p : ApptainerProvider,
    NewApptainerProvider env nn os ip port = (Some p, None) /\
    cpu p = orDefault (Getenv env "APPTAINER_QUOTA_CPU") "64" /\
    memory p = orDefault (Getenv env "APPTAINER_QUOTA_MEMORY") "512Gi" /\
    pods p = orDefault (Getenv env "APPTAINER_QUOTA_POD") "640" /\
    gpu p = Getenv env "APPTAINER_QUOTA_GPU".
Proof.
  unfold NewApptainerProvider.
  set (p0 := set_daemonEndpointPort _ _).
  pose proof (setupNodeCapacity_fields env p0) as Hf.
  pose proof (setupNodeCapacity_nil env p0) as Hn.
  destruct (setupNodeCapacity env p0) as [q e]. simpl in Hf, Hn. subst e.
  eexists. split; [reflexivity|]. simpl.
  destruct Hf as (Hc & Hm & Hp & Hg). repeat split; try assumption.
  rewrite Hg. unfold orDefault. case_decide as Hd; [reflexivity|].
  simpl. destruct (decide (Getenv env "APPTAINER_QUOTA_GPU" = EmptyString)) as [->|]; [reflexivity|].
  contradiction.
Qed.

Section NodeFacts.

Variable Quantity : Type.
Variable ParseQuantity : string -> option Quantity.
Variable Time : Type.
Variable ToLower : string -> string.
Variable Atoi : string -> option Z.

Lemma MustParse_Returns (s : string) (q : Quantity) :
  MustParse ParseQuantity s = Returns q <-> ParseQuantity s = Some q.
Proof.
  unfold MustParse. destruct (ParseQuantity s); split; intros H;
    try discriminate; congruence.
Qed.

Lemma capacity_nil : capacity ParseQuantity None = Panics NilPointerDereference.
Proof. reflexivity. Qed.

Lemma capacity_not_nil_deref (r : ApptainerProvider) :
  capacity ParseQuantity (Some r) <> Panics NilPointerDereference.
Proof.
  unfold capacity, MustParse. simpl.
  destruct (ParseQuantity (cpu r)); simpl; [|discriminate].
  destruct (ParseQuantity (memory r)); simpl; [|discriminate].
  destruct (ParseQuantity (pods r)); simpl; [|discriminate].
  case_decide; [|discriminate].
  destruct (ParseQuantity (gpu r)); simpl; discriminate.
Qed.

(** What the list holds when [capacity] returns one *)
Lemma capacity_lookup (r : ApptainerProvider) (rl : gmap string Quantity) :
  capacity ParseQuantity (Some r) = Returns rl ->
  rl !! ResourceCPU = ParseQuantity (cpu r) /\
  rl !! ResourceMemory = ParseQuantity (memory r) /\
  rl !! ResourcePods = ParseQuantity (pods r) /\
  (gpu r <> EmptyString -> rl !! gpuResourceName = ParseQuantity (gpu r)) /\
  (gpu r = EmptyString -> rl !! gpuResourceName = None) /\
  is_Some (rl !! ResourceCPU) /\ is_Some (rl !! ResourceMemory) /\
  is_Some (rl !! ResourcePods).
Proof.
  unfold capacity, MustParse. simpl.
  destruct (ParseQuantity (cpu r)) as [c|]; simpl; [|discriminate].
  destruct (ParseQuantity (memory r)) as [m|]; simpl; [|discriminate].
  destruct (ParseQuantity (pods r)) as [n|]; simpl; [|discriminate].
  case_decide as Hg.
  - destruct (ParseQuantity (gpu r)) as [g|]; simpl; [|discriminate].
    intros [= <-].
    unfold ResourceCPU, ResourceMemory, ResourcePods, gpuResourceName.
    repeat split; intros; simplify_map_eq; try done; eauto.
  - intros [= <-].
    unfold ResourceCPU, ResourceMemory, ResourcePods, gpuResourceName.
    repeat split; intros; simplify_map_eq; try done; eauto.
Qed.

(** [capacity] returns a list exactly when the strings it parses are
    quantities. *)
Lemma capacity_Returns (r : ApptainerProvider) :
  is_Some (ParseQuantity (cpu r)) ->
  is_Some (ParseQuantity (memory r)) ->
  is_Some (ParseQuantity (pods r)) ->
  (gpu r <> EmptyString -> is_Some (ParseQuantity (gpu r))) ->
  exists rl, capacity ParseQuantity (Some r) = Returns rl.
Proof.
  intros [c Hc] [m Hm] [n Hn] Hg. unfold capacity, MustParse. simpl.
  rewrite Hc, Hm, Hn. simpl. case_decide as Hd; [|eauto].
  destruct (Hg Hd) as [g ->]. simpl. eauto.
Qed.

(** C8: whatever the environment, [NewApptainerProvider] yields a
    provider, and the list [capacity] computes for it holds for cpu,
    memory and pods the quantity parsed from the matching
    APPTAINER_QUOTA_ variable when that is not empty and from "64",
    "512Gi" and "640" otherwise; it has an entry for nvidia.com/gpu
    exactly when APPTAINER_QUOTA_GPU is not empty, parsed from it. *)
Theorem capacity_after_New (env : gmap string string) (nn os ip : string)
    (port : Z) (rl : gmap string Quantity) :
  capacity ParseQuantity (NewApptainerProvider env nn os ip port).1 = Returns rl ->
  (NewApptainerProvider env nn os ip port).2 = None /\
  rl !! ResourceCPU
    = ParseQuantity (orDefault (Getenv env "APPTAINER_QUOTA_CPU") "64") /\
  rl !! ResourceMemory
    = ParseQuantity (orDefault (Getenv env "APPTAINER_QUOTA_MEMORY") "512Gi") /\
  rl !! ResourcePods
    = ParseQuantity (orDefault (Getenv env "APPTAINER_QUOTA_POD") "640") /\
  is_Some (rl !! ResourceCPU) /\ is_Some (rl !! ResourceMemory) /\
  is_Some (rl !! ResourcePods) /\
  (is_Some (rl !! gpuResourceName) <-> Getenv env "APPTAINER_QUOTA_GPU" <> EmptyString) /\
  (Getenv env "APPTAINER_QUOTA_GPU" <> EmptyString ->
     rl !! gpuResourceName = ParseQuantity (Getenv env "APPTAINER_QUOTA_GPU")).
Proof.
  destruct (NewApptainerProvider_fields env nn os ip port)
    as (p & -> & Hc & Hm & Hp & Hg).
  simpl. intros Hcap.
  destruct (capacity_lookup p rl Hcap)
    as (Lc & Lm & Lp & Lg1 & Lg0 & Sc & Sm & Sp).
  rewrite <- Hc, <- Hm, <- Hp, <- Hg.
  repeat split; try assumption.
  - intros Hs Hz. rewrite (Lg0 Hz) in Hs. by destruct Hs.
  - intros Hnz. rewrite (Lg1 Hnz).
    unfold capacity, MustParse in Hcap. simpl in Hcap.
    destruct (ParseQuantity (cpu p)); simpl in Hcap; [|discriminate].
    destruct (ParseQuantity (memory p)); simpl in Hcap; [|discriminate].
    destruct (ParseQuantity (pods p)); simpl in Hcap; [|discriminate].
    case_decide; [|contradiction].
    destruct (ParseQuantity (gpu p)); simpl in Hcap; [eauto|discriminate].
Qed.

(** C9: when [ConfigureNode] returns, the node's allocatable list
    equals its capacity list. *)
Theorem ConfigureNode_Allocatable_eq_Capacity
    (p : option ApptainerProvider) (now : nat -> Time)
    (node node' : Node Quantity Time) :
  ConfigureNode ParseQuantity ToLower p now node = Returns node' ->
  Allocatable (Status node') = Capacity (Status node').
Proof.
  unfold ConfigureNode.
  destruct (capacity ParseQuantity p) as [cap|why]; simpl; [|discriminate].
  destruct (deref p) as [r|why]; simpl; [|discriminate].
  destruct (Labels node) as [l|]; simpl; [|discriminate].
  intros [= <-]. reflexivity.
Qed.

(** What else [ConfigureNode] leaves in the node when it returns *)
Lemma ConfigureNode_Returns (r : ApptainerProvider) (now : nat -> Time)
    (node : Node Quantity Time) (l : gmap string string)
    (rl : gmap string Quantity) :
  Labels node = Some l ->
  capacity ParseQuantity (Some r) = Returns rl ->
  exists node',
    ConfigureNode ParseQuantity ToLower (Some r) now node = Returns node' /\
    Capacity (Status node') = rl /\
    NodeInfoOperatingSystem (Status node') = operatingSystem r /\
    (exists l', Labels node' = Some l' /\
                l' !! "kubernetes.io/os" = Some (ToLower (operatingSystem r))).
Proof.
  intros Hl Hcap. unfold ConfigureNode. rewrite Hcap, Hl. simpl.
  eexists. split; [reflexivity|]. simpl. repeat split.
  eexists. split; [reflexivity|]. by rewrite lookup_insert_eq.
Qed.

Lemma ConfigureNode_not_nil_deref (r : ApptainerProvider) (now : nat -> Time)
    (node : Node Quantity Time) :
  ConfigureNode ParseQuantity ToLower (Some r) now node
    <> Panics NilPointerDereference.
Proof.
  unfold ConfigureNode.
  pose proof (capacity_not_nil_deref r) as Hc.
  destruct (capacity ParseQuantity (Some r)) as [cap|why]; simpl;
    [|intros [= ->]; contradiction].
  destruct (Labels node) as [l|]; simpl; discriminate.
Qed.

(** C10: [setupNodeCapacity] returns a nil error, so
    [NewApptainerProvider] returns a provider and a nil error for every
    input, and the factory of main.go, which calls [ConfigureNode] on
    the provider before it checks the error, never panics on a nil
    provider. *)
Theorem NewApptainerProvider_never_nil (env : gmap string string)
    (nn os ip : string) (port listenPort : Z) (now : nat -> Time)
    (cfgNode : Node Quantity Time) :
  (forall p, (setupNodeCapacity env p).2 = None) /\
  (exists p, NewApptainerProvider env nn os ip port = (Some p, None)) /\
  ConfigureNode ParseQuantity ToLower (NewApptainerProvider env nn os ip port).1
      now cfgNode <> Panics NilPointerDereference /\
  providerFactory ParseQuantity ToLower Atoi env listenPort nn os now cfgNode
    <> Panics NilPointerDereference.
Proof.
  split; [intros p; apply setupNodeCapacity_nil|].
  split.
  { destruct (NewApptainerProvider_fields env nn os ip port) as (p & Hp & _). eauto. }
  split.
  { destruct (NewApptainerProvider_fields env nn os ip port) as (p & -> & _).
    apply ConfigureNode_not_nil_deref. }
  unfold providerFactory. cbv zeta.
  destruct (decide (Getenv env "KUBELET_PORT" ≠ EmptyString)) as [Hport|Hport].
  - destruct (Atoi (Getenv env "KUBELET_PORT")) as [n|]; [|discriminate].
    destruct (NewApptainerProvider_fields env nn os
                (Getenv env "VKUBELET_POD_IP") (int32 n)) as (p & -> & _).
    pose proof (ConfigureNode_not_nil_deref p now cfgNode) as Hc.
    destruct (ConfigureNode ParseQuantity ToLower (Some p) now cfgNode);
      simpl; [discriminate|]. intros [= ->]. contradiction.
  - destruct (NewApptainerProvider_fields env nn os
                (Getenv env "VKUBELET_POD_IP") (int32 listenPort))
      as (p & -> & _).
    pose proof (ConfigureNode_not_nil_deref p now cfgNode) as Hc.
    destruct (ConfigureNode ParseQuantity ToLower (Some p) now cfgNode);
      simpl; [discriminate|]. intros [= ->]. contradiction.
Qed.

End NodeFacts.

Lemma capacity_after_New_witness :
  capacity sampleParse
    (NewApptainerProvider sampleEnv "vk-apptainer" "Linux" "10.0.0.1" 10250).1
    = Returns sampleList /\
  sampleList !! ResourceCPU = Some "8" /\
  sampleList !! ResourceMemory = Some "512Gi" /\
  sampleList !! ResourcePods = Some "640" /\
  is_Some (sampleList !! gpuResourceName).
Proof.
  assert (H : capacity sampleParse
                (NewApptainerProvider sampleEnv "vk-apptainer" "Linux" "10.0.0.1" 10250).1
              = Returns sampleList) by (vm_compute; reflexivity).
  split; [exact H|].
  destruct (capacity_after_New string sampleParse sampleEnv
              "vk-apptainer" "Linux" "10.0.0.1" 10250 sampleList H)
    as (_ & Hc & Hm & Hp & _ & _ & _ & Hg & _).
  split; [exact Hc|]. split; [exact Hm|]. split; [exact Hp|].
  apply Hg. vm_compute. discriminate.
Defined.

Lemma ConfigureNode_Allocatable_eq_Capacity_witness :
  ConfigureNode sampleParse (fun s => s) (Some (provider world0)) (fun k => k) sampleNode
    = Returns sampleConfigured /\
  Allocatable (Status sampleConfigured) = Capacity (Status sampleConfigured).
Proof.
  assert (H : ConfigureNode sampleParse (fun s => s) (Some (provider world0))
                (fun k => k) sampleNode = Returns sampleConfigured)
    by (vm_compute; reflexivity).
  split; [exact H|].
  exact (ConfigureNode_Allocatable_eq_Capacity string sampleParse nat (fun s => s)
           (Some (provider world0)) (fun k => k) sampleNode sampleConfigured H).
Defined.

(** ** The code on concrete inputs *)

Example New_defaults :
  NewApptainerProvider ∅ "vk-apptainer" "Linux" "10.0.0.1" 10250
    = (Some (provider world0), None).
Proof. reflexivity. Qed.

Example capacity_defaults :
  capacity sampleParse (Some (provider world0))
    = Returns (<["pods" := "640"]> (<["memory" := "512Gi"]> (<["cpu" := "64"]> ∅))).
Proof. vm_compute. reflexivity. Qed.

Example capacity_bad_quota :
  capacity sampleParse
    (NewApptainerProvider (<["APPTAINER_QUOTA_MEMORY" := "lots"]> ∅)
       "vk-apptainer" "Linux" "10.0.0.1" 10250).1
    = Panics (CannotParseQuantity "lots").
Proof. vm_compute. reflexivity. Qed.

Example ConfigureNode_nil_provider :
  ConfigureNode sampleParse (fun s => s) None (fun k => k) sampleNode
    = Panics NilPointerDereference.
Proof. reflexivity. Qed.

Example ConfigureNode_nil_labels :
  ConfigureNode sampleParse (fun s => s) (Some (provider world0)) (fun k => k)
    (MkNode None (MkNodeStatus ∅ ∅ [] [] 0 EmptyString))
    = Panics AssignmentToNilMap.
Proof. vm_compute. reflexivity. Qed.

Example int32_listenPort : int32 10250 = 10250.
Proof. reflexivity. Qed.

Example int32_wraps : int32 (2 ^ 31) = - 2 ^ 31.
Proof. reflexivity. Qed.

Example Design_Create_twice :
  (Design.Create ("default", "a") (Design.Create ("default", "a") ∅).2).1
    = Some Conflict.
Proof. vm_compute. reflexivity. Qed.

Example exec_Create_twice :
  (exec [CallCreatePod podA; CallCreatePod podA] world0).1
    = [ReplyError None; ReplyError None].
Proof. reflexivity. Qed.

(** * Further facts about the code *)

(** ** Building the provider *)

Lemma setupNodeCapacity_frame (env : gmap string string) (p : ApptainerProvider) :
  nodeName (setupNodeCapacity env p).1 = nodeName p /\
  operatingSystem (setupNodeCapacity env p).1 = operatingSystem p /\
  internalIP (setupNodeCapacity env p).1 = internalIP p /\
  daemonEndpointPort (setupNodeCapacity env p).1 = daemonEndpointPort p /\
  metricsProvider (setupNodeCapacity env p).1 = metricsProvider p.
Proof.
  unfold setupNodeCapacity. cbv zeta.
  repeat case_decide; simpl; repeat split; reflexivity.
Qed.

(** X1: running [setupNodeCapacity] a second time on its own result
    changes nothing more, also for a provider that already had quota
    fields; and a GPU quota the provider had is kept when
    APPTAINER_QUOTA_GPU is empty, where the other three fields fall back
    to their defaults. *)
Theorem setupNodeCapacity_idempotent (env : gmap string string)
    (p : ApptainerProvider) :
  setupNodeCapacity env (setupNodeCapacity env p).1 = setupNodeCapacity env p /\
  (Getenv env "APPTAINER_QUOTA_GPU" = EmptyString ->
     gpu (setupNodeCapacity env p).1 = gpu p) /\
  (Getenv env "APPTAINER_QUOTA_CPU" = EmptyString ->
     cpu (setupNodeCapacity env p).1 = "64").
Proof.
  destruct p as [nn os c m n g ip port mp].
  unfold setupNodeCapacity. cbv zeta.
  repeat case_decide; simpl; repeat split; intros; try reflexivity; contradiction.
Qed.

(** X2: the provider depends on the environment only through the four
    quota variables as [os.Getenv] reads them: two environments that
    agree there (a variable set to the empty string reading like an
    unset one) give the same provider. *)
Theorem NewApptainerProvider_env_frame (env1 env2 : gmap string string)
    (nn os ip : string) (port : Z) :
  Getenv env1 "APPTAINER_QUOTA_CPU" = Getenv env2 "APPTAINER_QUOTA_CPU" ->
  Getenv env1 "APPTAINER_QUOTA_MEMORY" = Getenv env2 "APPTAINER_QUOTA_MEMORY" ->
  Getenv env1 "APPTAINER_QUOTA_POD" = Getenv env2 "APPTAINER_QUOTA_POD" ->
  Getenv env1 "APPTAINER_QUOTA_GPU" = Getenv env2 "APPTAINER_QUOTA_GPU" ->
  NewApptainerProvider env1 nn os ip port = NewApptainerProvider env2 nn os ip port.
Proof.
  intros Hc Hm Hp Hg. unfold NewApptainerProvider, setupNodeCapacity. cbv zeta.
  rewrite Hc, Hm, Hp, Hg. reflexivity.
Qed.

Lemma NewApptainerProvider_args (env : gmap string string)
    (nn os ip : string) (port : Z) :
  exists p : ApptainerProvider,
    NewApptainerProvider env nn os ip port = (Some p, None) /\
    nodeName p = nn /\ operatingSystem p = os /\ internalIP p = ip /\
    daemonEndpointPort p = port /\
    metricsProvider p = Some NewApptaienrMetricsProver.
Proof.
  unfold NewApptainerProvider. cbv zeta.
  set (p0 := set_daemonEndpointPort _ _).
  pose proof (setupNodeCapacity_frame env p0) as (Hn & Ho & Hi & Hp & _).
  pose proof (setupNodeCapacity_nil env p0) as He.
  destruct (setupNodeCapacity env p0) as [q e]. simpl in *. subst e.
  eexists. split; [reflexivity|]. simpl. repeat split; assumption.
Qed.

(** X3: whatever the environment holds, the provider that
    [NewApptainerProvider] returns carries the node name, operating
    system, address and port it was given, and a metrics provider. *)
Theorem NewApptainerProvider_keeps_arguments (env : gmap string string)
    (nn os ip : string) (port : Z) :
  exists p : ApptainerProvider,
    NewApptainerProvider env nn os ip port = (Some p, None) /\
    nodeName p = nn /\ operatingSystem p = os /\ internalIP p = ip /\
    daemonEndpointPort p = port /\
    metricsProvider p = Some NewApptaienrMetricsProver.
Proof. apply NewApptainerProvider_args. Qed.

Lemma NewApptainerProvider_env_frame_witness :
  NewApptainerProvider sampleEnvNoise "vk-apptainer" "Linux" "10.0.0.1" 10250
    = NewApptainerProvider sampleEnv "vk-apptainer" "Linux" "10.0.0.1" 10250.
Proof.
  apply (NewApptainerProvider_env_frame sampleEnvNoise sampleEnv);
    vm_compute; reflexivity.
Defined.

(** ** The capacity list and the node *)

Section MoreNodeFacts.

Variable Quantity : Type.
Variable ParseQuantity : string -> option Quantity.
Variable Time : Type.
Variable ToLower : string -> string.
Variable Atoi : string -> option Z.

(** X4: [capacity] returns a list exactly when the cpu, memory and pods
    strings parse as quantities and the gpu string is empty or parses;
    in every other case it panics. *)
Theorem capacity_Returns_iff (r : ApptainerProvider) :
  (exists rl, capacity ParseQuantity (Some r) = Returns rl) <->
  is_Some (ParseQuantity (cpu r)) /\
  is_Some (ParseQuantity (memory r)) /\
  is_Some (ParseQuantity (pods r)) /\
  (gpu r <> EmptyString -> is_Some (ParseQuantity (gpu r))).
Proof.
  split.
  - intros [rl Hcap]. unfold capacity, MustParse in Hcap. simpl in Hcap.
    destruct (ParseQuantity (cpu r)) as [c|]; simpl in Hcap; [|discriminate].
    destruct (ParseQuantity (memory r)) as [m|]; simpl in Hcap; [|discriminate].
    destruct (ParseQuantity (pods r)) as [n|]; simpl in Hcap; [|discriminate].
    repeat split; eauto. intros Hg.
    case_decide; [|contradiction].
    destruct (ParseQuantity (gpu r)); simpl in Hcap; [eauto|discriminate].
  - intros (Hc & Hm & Hn & Hg).
    exact (capacity_Returns Quantity ParseQuantity r Hc Hm Hn Hg).
Qed.

(** X5: when [capacity] panics, the panic names the first string, in
    the order cpu, memory, pods, gpu, that is not a quantity; the gpu
    string is only looked at when it is not empty. *)
Theorem capacity_panics_first (r : ApptainerProvider) (why : panic) :
  capacity ParseQuantity (Some r) = Panics why ->
  exists s, why = CannotParseQuantity s /\ ParseQuantity s = None /\
    (s = cpu r \/
     (is_Some (ParseQuantity (cpu r)) /\ s = memory r) \/
     (is_Some (ParseQuantity (cpu r)) /\ is_Some (ParseQuantity (memory r)) /\
      s = pods r) \/
     (is_Some (ParseQuantity (cpu r)) /\ is_Some (ParseQuantity (memory r)) /\
      is_Some (ParseQuantity (pods r)) /\ gpu r <> EmptyString /\ s = gpu r)).
Proof.
  unfold capacity, MustParse. simpl.
  destruct (ParseQuantity (cpu r)) as [c|] eqn:Ec; simpl.
  2:{ intros [= <-]. exists (cpu r). eauto. }
  destruct (ParseQuantity (memory r)) as [m|] eqn:Em; simpl.
  2:{ intros [= <-]. exists (memory r). eauto 6. }
  destruct (ParseQuantity (pods r)) as [n|] eqn:En; simpl.
  2:{ intros [= <-]. exists (pods r). eauto 8. }
  case_decide as Hg; [|discriminate].
  destruct (ParseQuantity (gpu r)) as [g|] eqn:Eg; simpl; [discriminate|].
  intros [= <-]. exists (gpu r). split; [reflexivity|]. split; [assumption|].
  right. right. right. eauto 8.
Qed.

(** X6: the list [capacity] returns has the keys cpu, memory and pods,
    the key nvidia.com/gpu in addition exactly when the gpu string is
    not empty, and no other key. *)
Theorem capacity_dom (r : ApptainerProvider) (rl : gmap string Quantity) :
  capacity ParseQuantity (Some r) = Returns rl ->
  dom rl =
    (if decide (gpu r ≠ EmptyString)
     then {[ gpuResourceName; ResourcePods; ResourceMemory; ResourceCPU ]}
     else {[ ResourcePods; ResourceMemory; ResourceCPU ]} : gset string) /\
  size rl = (if decide (gpu r ≠ EmptyString) then 4%nat else 3%nat).
Proof.
  unfold capacity, MustParse. simpl.
  destruct (ParseQuantity (cpu r)) as [c|]; simpl; [|discriminate].
  destruct (ParseQuantity (memory r)) as [m|]; simpl; [|discriminate].
  destruct (ParseQuantity (pods r)) as [n|]; simpl; [|discriminate].
  case_decide as Hg.
  - destruct (ParseQuantity (gpu r)) as [g|]; simpl; [|discriminate].
    intros [= <-]. split.
    + rewrite !dom_insert_L, dom_empty_L. set_solver.
    + rewrite !map_size_insert_None, map_size_empty; [reflexivity|..];
        unfold gpuResourceName, ResourcePods, ResourceMemory, ResourceCPU;
        by simplify_map_eq.
  - intros [= <-]. split.
    + rewrite !dom_insert_L, dom_empty_L. set_solver.
    + rewrite !map_size_insert_None, map_size_empty; [reflexivity|..];
        unfold ResourcePods, ResourceMemory, ResourceCPU;
        by simplify_map_eq.
Qed.

(** X7: [ConfigureNode] returns exactly when the provider is not nil,
    the node's label map is not nil and [capacity] returns a list. *)
Theorem ConfigureNode_Returns_iff (p : option ApptainerProvider)
    (now : nat -> Time) (node : Node Quantity Time) :
  (exists node', ConfigureNode ParseQuantity ToLower p now node = Returns node') <->
  (exists r l rl, p = Some r /\ Labels node = Some l /\
                  capacity ParseQuantity (Some r) = Returns rl).
Proof.
  split.
  - intros [node' H]. unfold ConfigureNode in H.
    destruct p as [r|]; [|discriminate H].
    destruct (capacity ParseQuantity (Some r)) as [rl|why] eqn:Ec; simpl in H;
      [|discriminate].
    destruct (Labels node) as [l|] eqn:El; simpl in H; [|discriminate].
    exists r, l, rl. auto.
  - intros (r & l & rl & -> & Hl & Hcap).
    destruct (ConfigureNode_Returns Quantity ParseQuantity Time ToLower
                r now node l rl Hl Hcap) as (node' & H & _).
    eauto.
Qed.

(** X8: a panic of [capacity] is the panic of [ConfigureNode], whatever
    the node; a nil label map makes [ConfigureNode] panic on the first
    label only when [capacity] has returned. *)
Theorem ConfigureNode_panics (r : ApptainerProvider) (now : nat -> Time)
    (node : Node Quantity Time) (why : panic) :
  ConfigureNode ParseQuantity ToLower (Some r) now node = Panics why ->
  capacity ParseQuantity (Some r) = Panics why \/
  (why = AssignmentToNilMap /\ Labels node = None /\
   exists rl, capacity ParseQuantity (Some r) = Returns rl).
Proof.
  unfold ConfigureNode.
  destruct (capacity ParseQuantity (Some r)) as [rl|w]; simpl.
  - destruct (Labels node) as [l|]; simpl; [discriminate|].
    intros [= <-]. right. eauto.
  - intros [= <-]. left. reflexivity.
Qed.

(** X9: when [ConfigureNode] returns, the node carries the two
    load-balancer exclusion labels with value "true" and both OS labels
    with the lower-cased operating system, whatever these keys held
    before; every other label of the node is as it was. *)
Theorem ConfigureNode_labels (p : option ApptainerProvider) (now : nat -> Time)
    (node node' : Node Quantity Time) :
  ConfigureNode ParseQuantity ToLower p now node = Returns node' ->
  exists r l l', p = Some r /\ Labels node = Some l /\ Labels node' = Some l' /\
    l' !! "alpha.service-controller.kubernetes.io/exclude-balancer" = Some "true" /\
    l' !! "node.kubernetes.io/exclude-from-external-load-balancers" = Some "true" /\
    l' !! "beta.kubernetes.io/os" = Some (ToLower (operatingSystem r)) /\
    l' !! "kubernetes.io/os" = Some (ToLower (operatingSystem r)) /\
    (forall k : string, ~ In k configuredLabels -> l' !! k = l !! k).
Proof.
  unfold ConfigureNode.
  destruct p as [r|]; [|discriminate].
  destruct (capacity ParseQuantity (Some r)) as [rl|w]; simpl; [|discriminate].
  destruct (Labels node) as [l|] eqn:El; simpl; [|discriminate].
  intros [= <-]. exists r, l. eexists. split; [reflexivity|].
  split; [reflexivity|]. split; [reflexivity|].
  repeat split; try by simplify_map_eq.
  intros k Hk. unfold configuredLabels in Hk. simpl in Hk.
  rewrite !lookup_insert_ne; [reflexivity|..]; intros <-; apply Hk; tauto.
Qed.

(** X10: configuring a node that [ConfigureNode] has already configured,
    with the same provider and the same clock readings, gives the same
    node again. *)
Theorem ConfigureNode_idempotent (p : option ApptainerProvider)
    (now : nat -> Time) (node node' : Node Quantity Time) :
  ConfigureNode ParseQuantity ToLower p now node = Returns node' ->
  ConfigureNode ParseQuantity ToLower p now node' = Returns node'.
Proof.
  unfold ConfigureNode.
  destruct p as [r|]; [|discriminate].
  destruct (capacity ParseQuantity (Some r)) as [rl|w]; simpl; [|discriminate].
  destruct (Labels node) as [l|] eqn:El; simpl; [|discriminate].
  intros [= <-]. simpl. do 2 f_equal. f_equal.
  apply map_eq. intros k.
  rewrite !lookup_insert. repeat case_decide; reflexivity.
Qed.

(** X11: when [ConfigureNode] returns, the node has the one address of
    type InternalIP that the provider holds, the provider's port as
    kubelet endpoint, the operating system as given (the labels carry it
    lower-cased), and the five conditions Ready, OutOfDisk,
    MemoryPressure, DiskPressure and NetworkUnavailable, in this order,
    of which Ready is true and the four others are false. *)
Theorem ConfigureNode_status (p : option ApptainerProvider) (now : nat -> Time)
    (node node' : Node Quantity Time) :
  ConfigureNode ParseQuantity ToLower p now node = Returns node' ->
  exists r, p = Some r /\
    Addresses (Status node') = [MkNodeAddress "InternalIP" (internalIP r)] /\
    KubeletEndpointPort (Status node') = daemonEndpointPort r /\
    NodeInfoOperatingSystem (Status node') = operatingSystem r /\
    capacity ParseQuantity p = Returns (Capacity (Status node')) /\
    map (CondType _) (Conditions (Status node'))
      = ["Ready"; "OutOfDisk"; "MemoryPressure"; "DiskPressure";
         "NetworkUnavailable"] /\
    map (CondStatus _) (Conditions (Status node'))
      = [ConditionTrue; ConditionFalse; ConditionFalse; ConditionFalse;
         ConditionFalse] /\
    (exists c, In c (Conditions (Status node')) /\
               CondType _ c = "Ready" /\ CondStatus _ c = ConditionTrue) /\
    length (Conditions (Status node')) = 5%nat /\
    (forall c, In c (Conditions (Status node')) ->
       (CondStatus _ c = ConditionTrue <-> CondType _ c = "Ready") /\
       (CondStatus _ c = ConditionFalse <-> CondType _ c <> "Ready")).
Proof.
  unfold ConfigureNode.
  destruct p as [r|]; [|discriminate].
  destruct (capacity ParseQuantity (Some r)) as [rl|w]; simpl; [|discriminate].
  destruct (Labels node) as [l|] eqn:El; simpl; [|discriminate].
  intros [= <-]. exists r. simpl.
  do 7 (split; [reflexivity|]).
  split.
  { eexists. split; [left; reflexivity|]. split; reflexivity. }
  split; [reflexivity|].
  intros c Hc.
  destruct Hc as [<-|[<-|[<-|[<-|[<-|[]]]]]]; simpl;
    repeat split; intros; congruence.
Qed.

End MoreNodeFacts.

Lemma capacity_panics_first_witness :
  capacity sampleParse (Some sampleBadQuota) = Panics (CannotParseQuantity "lots") /\
  sampleParse "lots" = None /\
  is_Some (sampleParse (cpu sampleBadQuota)).
Proof.
  assert (H : capacity sampleParse (Some sampleBadQuota)
              = Panics (CannotParseQuantity "lots")) by (vm_compute; reflexivity).
  split; [exact H|].
  destruct (capacity_panics_first string sampleParse sampleBadQuota _ H)
    as (s & Hw & Hs & _).
  injection Hw as <-. split; [exact Hs|]. vm_compute. eauto.
Defined.

Lemma capacity_dom_witness :
  capacity sampleParse (Some sampleQuotaProvider) = Returns sampleList /\
  size sampleList = 4%nat.
Proof.
  assert (H : capacity sampleParse (Some sampleQuotaProvider) = Returns sampleList)
    by (vm_compute; reflexivity).
  split; [exact H|].
  exact (proj2 (capacity_dom string sampleParse sampleQuotaProvider sampleList H)).
Defined.

Lemma ConfigureNode_panics_witness :
  ConfigureNode sampleParse sampleToLower (Some (provider world0)) (fun k => k)
    sampleNilLabels = Panics AssignmentToNilMap /\
  Labels sampleNilLabels = None.
Proof.
  assert (H : ConfigureNode sampleParse sampleToLower (Some (provider world0))
                (fun k => k) sampleNilLabels = Panics AssignmentToNilMap)
    by (vm_compute; reflexivity).
  split; [exact H|].
  destruct (ConfigureNode_panics string sampleParse nat sampleToLower
              (provider world0) (fun k => k) sampleNilLabels _ H)
    as [Hc | (_ & Hl & _)]; [|exact Hl].
  vm_compute in Hc. discriminate Hc.
Defined.

Lemma ConfigureNode_labels_witness :
  ConfigureNode sampleParse sampleToLower (Some (provider world0)) (fun k => k)
    sampleNode = Returns sampleConfiguredLower /\
  exists l', Labels sampleConfiguredLower = Some l' /\
    l' !! "kubernetes.io/os" = Some "linux" /\
    l' !! "type" = Some "virtual-kubelet".
Proof.
  assert (H : ConfigureNode sampleParse sampleToLower (Some (provider world0))
                (fun k => k) sampleNode = Returns sampleConfiguredLower)
    by (vm_compute; reflexivity).
  split; [exact H|].
  destruct (ConfigureNode_labels string sampleParse nat sampleToLower
              (Some (provider world0)) (fun k => k) sampleNode
              sampleConfiguredLower H)
    as (r & l & l' & Hp & Hl & Hl' & _ & _ & _ & Hos & Hk).
  exists l'. split; [exact Hl'|]. injection Hp as <-. split; [exact Hos|].
  rewrite Hk.
  - injection Hl as <-. vm_compute. reflexivity.
  - simpl. intuition discriminate.
Defined.

Lemma ConfigureNode_idempotent_witness :
  ConfigureNode sampleParse sampleToLower (Some (provider world0)) (fun k => k)
    sampleNode = Returns sampleConfiguredLower /\
  ConfigureNode sampleParse sampleToLower (Some (provider world0)) (fun k => k)
    sampleConfiguredLower = Returns sampleConfiguredLower.
Proof.
  assert (H : ConfigureNode sampleParse sampleToLower (Some (provider world0))
                (fun k => k) sampleNode = Returns sampleConfiguredLower)
    by (vm_compute; reflexivity).
  split; [exact H|].
  exact (ConfigureNode_idempotent string sampleParse nat sampleToLower
           (Some (provider world0)) (fun k => k) sampleNode
           sampleConfiguredLower H).
Defined.

Lemma ConfigureNode_status_witness :
  ConfigureNode sampleParse sampleToLower (Some (provider world0)) (fun k => k)
    sampleNode = Returns sampleConfiguredLower /\
  KubeletEndpointPort (Status sampleConfiguredLower) = 10250 /\
  Addresses (Status sampleConfiguredLower) = [MkNodeAddress "InternalIP" "10.0.0.1"].
Proof.
  assert (H : ConfigureNode sampleParse sampleToLower (Some (provider world0))
                (fun k => k) sampleNode = Returns sampleConfiguredLower)
    by (vm_compute; reflexivity).
  split; [exact H|].
  destruct (ConfigureNode_status string sampleParse nat sampleToLower
              (Some (provider world0)) (fun k => k) sampleNode
              sampleConfiguredLower H)
    as (r & Hp & Ha & Hport & _).
  injection Hp as <-. split; [exact Hport | exact Ha].
Defined.

(** ** The provider factory of main.go *)

Lemma int32_range (x : Z) : - 2 ^ 31 <= int32 x < 2 ^ 31.
Proof.
  unfold int32. pose proof (Z.mod_pos_bound (x + 2 ^ 31) (2 ^ 32)). lia.
Qed.

Lemma int32_in_range (x : Z) : - 2 ^ 31 <= x < 2 ^ 31 -> int32 x = x.
Proof.
  intros H. unfold int32. rewrite Z.mod_small; lia.
Qed.

Section FactoryFacts.

Variable Quantity : Type.
Variable ParseQuantity : string -> option Quantity.
Variable Time : Type.
Variable ToLower : string -> string.
Variable Atoi : string -> option Z.

Lemma ConfigureNode_inv (r : ApptainerProvider) (now : nat -> Time)
    (node node' : Node Quantity Time) :
  ConfigureNode ParseQuantity ToLower (Some r) now node = Returns node' ->
  Addresses (Status node') = [MkNodeAddress "InternalIP" (internalIP r)] /\
  KubeletEndpointPort (Status node') = daemonEndpointPort r /\
  Allocatable (Status node') = Capacity (Status node').
Proof.
  unfold ConfigureNode.
  destruct (capacity ParseQuantity (Some r)); simpl; [|discriminate].
  destruct (Labels node); simpl; [|discriminate].
  intros [= <-]. repeat split.
Qed.

(** X12: when KUBELET_PORT is set to something [strconv.Atoi] rejects,
    the factory returns that error with a nil provider and leaves the
    node alone: [ConfigureNode] is not reached, so nothing panics, not
    even on a node without a label map. *)
Theorem providerFactory_bad_port (env : gmap string string) (listenPort : Z)
    (nn os : string) (now : nat -> Time) (cfgNode : Node Quantity Time) :
  Getenv env "KUBELET_PORT" <> EmptyString ->
  Atoi (Getenv env "KUBELET_PORT") = None ->
  providerFactory ParseQuantity ToLower Atoi env listenPort nn os now cfgNode
    = Returns (None, Some InvalidSyntax, cfgNode).
Proof.
  intros Hne Hbad. unfold providerFactory. cbv zeta.
  case_decide; [|contradiction]. rewrite Hbad. reflexivity.
Qed.

(** X13: whenever the factory returns, either the error is nil and the
    provider is there, named as asked, with VKUBELET_POD_IP as its
    address, the same port as the configured node's kubelet endpoint and
    that address as the node's only one; or the provider is nil, the
    error is the one of [strconv.Atoi] on a non-empty KUBELET_PORT, and
    the node is untouched. *)
Theorem providerFactory_result (env : gmap string string) (listenPort : Z)
    (nn os : string) (now : nat -> Time) (cfgNode node' : Node Quantity Time)
    (p : option ApptainerProvider) (err : error) :
  providerFactory ParseQuantity ToLower Atoi env listenPort nn os now cfgNode
    = Returns (p, err, node') ->
  (err = None /\
   exists r, p = Some r /\ nodeName r = nn /\ operatingSystem r = os /\
     internalIP r = Getenv env "VKUBELET_POD_IP" /\
     KubeletEndpointPort (Status node') = daemonEndpointPort r /\
     Addresses (Status node')
       = [MkNodeAddress "InternalIP" (Getenv env "VKUBELET_POD_IP")] /\
     Allocatable (Status node') = Capacity (Status node')) \/
  (p = None /\ err = Some InvalidSyntax /\ node' = cfgNode /\
   Getenv env "KUBELET_PORT" <> EmptyString /\
   Atoi (Getenv env "KUBELET_PORT") = None).
Proof.
  unfold providerFactory. cbv zeta.
  set (ip := Getenv env "VKUBELET_POD_IP").
  assert (Hgood : forall port,
    obind (let '(q, e) := NewApptainerProvider env nn os ip (int32 port) in
           obind (ConfigureNode ParseQuantity ToLower q now cfgNode)
                 (fun node => Returns (q, e, node)))
          (fun x => Returns x) = Returns (p, err, node') ->
    err = None /\
    exists r, p = Some r /\ nodeName r = nn /\ operatingSystem r = os /\
      internalIP r = ip /\
      KubeletEndpointPort (Status node') = daemonEndpointPort r /\
      Addresses (Status node') = [MkNodeAddress "InternalIP" ip] /\
      Allocatable (Status node') = Capacity (Status node')).
  { intros port.
    destruct (NewApptainerProvider_args env nn os ip (int32 port))
      as (r & -> & Hn & Ho & Hi & Hp & _).
    destruct (ConfigureNode ParseQuantity ToLower (Some r) now cfgNode)
      as [n|w] eqn:Ec; simpl; [|discriminate].
    intros [= <- <- <-]. split; [reflexivity|]. exists r.
    destruct (ConfigureNode_inv r now cfgNode n Ec) as (Ha & Hport & Hal).
    rewrite Ha, Hport, Hi. repeat split; try assumption; reflexivity. }
  destruct (decide (Getenv env "KUBELET_PORT" ≠ EmptyString)) as [Hne|He].
  - destruct (Atoi (Getenv env "KUBELET_PORT")) as [n|] eqn:Ea.
    + intros H. left. apply (Hgood n).
      destruct (NewApptainerProvider env nn os ip (int32 n)) as [q e].
      destruct (ConfigureNode ParseQuantity ToLower q now cfgNode); exact H.
    + intros [= <- <- <-]. right. auto.
  - intros H. left. apply (Hgood listenPort).
    destruct (NewApptainerProvider env nn os ip (int32 listenPort)) as [q e].
    destruct (ConfigureNode ParseQuantity ToLower q now cfgNode); exact H.
Qed.

(** X14: with a numeric KUBELET_PORT the provider's port is that number
    converted to [int32]: always within the 32-bit range, the number
    itself when it fits, and the same for two numbers 2^32 apart. *)
Theorem providerFactory_port (env : gmap string string) (listenPort n : Z)
    (nn os : string) (now : nat -> Time) (cfgNode node' : Node Quantity Time)
    (r : ApptainerProvider) (err : error) :
  Getenv env "KUBELET_PORT" <> EmptyString ->
  Atoi (Getenv env "KUBELET_PORT") = Some n ->
  providerFactory ParseQuantity ToLower Atoi env listenPort nn os now cfgNode
    = Returns (Some r, err, node') ->
  daemonEndpointPort r = int32 n /\
  - 2 ^ 31 <= daemonEndpointPort r < 2 ^ 31 /\
  (- 2 ^ 31 <= n < 2 ^ 31 -> daemonEndpointPort r = n) /\
  int32 (n + 2 ^ 32) = int32 n.
Proof.
  intros Hne Ha. unfold providerFactory. cbv zeta.
  case_decide; [|contradiction]. rewrite Ha.
  destruct (NewApptainerProvider_args env nn os
              (Getenv env "VKUBELET_POD_IP") (int32 n))
    as (q & -> & _ & _ & _ & Hp & _).
  destruct (ConfigureNode ParseQuantity ToLower (Some q) now cfgNode);
    simpl; [|discriminate].
  intros [= -> <- <-]. rewrite Hp.
  split; [reflexivity|]. split; [apply int32_range|].
  split; [apply int32_in_range|].
  unfold int32. replace (n + 2 ^ 32 + 2 ^ 31) with (n + 2 ^ 31 + 1 * 2 ^ 32) by lia.
  rewrite Z.mod_add; lia.
Qed.

(** X15: a non-empty KUBELET_PORT overrides the configured listen port:
    the factory's result is the same for any two values of it. *)
Theorem providerFactory_ignores_listenPort (env : gmap string string)
    (listenPort1 listenPort2 : Z) (nn os : string) (now : nat -> Time)
    (cfgNode : Node Quantity Time) :
  Getenv env "KUBELET_PORT" <> EmptyString ->
  providerFactory ParseQuantity ToLower Atoi env listenPort1 nn os now cfgNode
    = providerFactory ParseQuantity ToLower Atoi env listenPort2 nn os now cfgNode.
Proof.
  intros Hne. unfold providerFactory. cbv zeta.
  case_decide; [reflexivity|contradiction].
Qed.

End FactoryFacts.

Lemma providerFactory_bad_port_witness :
  providerFactory sampleParse sampleToLower sampleAtoi sampleEnvBadPort 10250
      "vk-apptainer" "Linux" (fun k => k) sampleNilLabels
    = Returns (None, Some InvalidSyntax, sampleNilLabels).
Proof.
  apply (providerFactory_bad_port string sampleParse nat sampleToLower sampleAtoi
           sampleEnvBadPort 10250 "vk-apptainer" "Linux" (fun k => k)
           sampleNilLabels).
  - vm_compute. discriminate.
  - vm_compute. reflexivity.
Defined.

Lemma providerFactory_result_witness :
  providerFactory sampleParse sampleToLower sampleAtoi sampleEnvPort 10250
      "vk-apptainer" "Linux" (fun k => k) sampleNode
    = Returns (Some sampleFactoryProvider, None, sampleFactoryNode) /\
  KubeletEndpointPort (Status sampleFactoryNode) = 10255 /\
  Addresses (Status sampleFactoryNode) = [MkNodeAddress "InternalIP" "10.0.0.7"].
Proof.
  assert (H : providerFactory sampleParse sampleToLower sampleAtoi sampleEnvPort
                10250 "vk-apptainer" "Linux" (fun k => k) sampleNode
              = Returns (Some sampleFactoryProvider, None, sampleFactoryNode))
    by (vm_compute; reflexivity).
  split; [exact H|].
  destruct (providerFactory_result string sampleParse nat sampleToLower sampleAtoi
              sampleEnvPort 10250 "vk-apptainer" "Linux" (fun k => k)
              sampleNode sampleFactoryNode (Some sampleFactoryProvider) None H)
    as [(_ & r & Hp & _ & _ & _ & Hport & Ha & _) | (Hp & _)];
    [|discriminate Hp].
  injection Hp as <-. split; [exact Hport | exact Ha].
Defined.

Lemma providerFactory_port_witness :
  Getenv sampleEnvPort "KUBELET_PORT" <> EmptyString /\
  sampleAtoi (Getenv sampleEnvPort "KUBELET_PORT") = Some 10255 /\
  daemonEndpointPort sampleFactoryProvider = 10255.
Proof.
  assert (Hne : Getenv sampleEnvPort "KUBELET_PORT" <> EmptyString)
    by (vm_compute; discriminate).
  assert (Ha : sampleAtoi (Getenv sampleEnvPort "KUBELET_PORT") = Some 10255)
    by (vm_compute; reflexivity).
  assert (H : providerFactory sampleParse sampleToLower sampleAtoi sampleEnvPort
                10250 "vk-apptainer" "Linux" (fun k => k) sampleNode
              = Returns (Some sampleFactoryProvider, None, sampleFactoryNode))
    by (vm_compute; reflexivity).
  split; [exact Hne|]. split; [exact Ha|].
  destruct (providerFactory_port string sampleParse nat sampleToLower sampleAtoi
              sampleEnvPort 10250 10255 "vk-apptainer" "Linux" (fun k => k)
              sampleNode sampleFactoryNode sampleFactoryProvider None Hne Ha H)
    as (_ & _ & Hid & _).
  apply Hid. lia.
Defined.

Lemma providerFactory_ignores_listenPort_witness :
  providerFactory sampleParse sampleToLower sampleAtoi sampleEnvPort 10250
      "vk-apptainer" "Linux" (fun k => k) sampleNode
    = providerFactory sampleParse sampleToLower sampleAtoi sampleEnvPort 1
        "vk-apptainer" "Linux" (fun k => k) sampleNode.
Proof.
  apply (providerFactory_ignores_listenPort string sampleParse nat sampleToLower
           sampleAtoi sampleEnvPort 10250 1 "vk-apptainer" "Linux" (fun k => k)
           sampleNode).
  vm_compute. discriminate.
Defined.

(** ** The taint option of main.go *)

Lemma withTaint_cases (env : gmap string string) (taints : list Taint) :
  (In (taintEffect env)
      [TaintEffectNoSchedule; TaintEffectNoExecute; TaintEffectPreferNoSchedule] /\
   withTaint env false taints
     = ((taints ++ [MkTaint (taintKey env) (taintValue env) (taintEffect env)])%list,
        None)) \/
  (~ In (taintEffect env)
      [TaintEffectNoSchedule; TaintEffectNoExecute; TaintEffectPreferNoSchedule] /\
   withTaint env false taints
     = (taints, Some (TaintEffectNotSupported (taintEffect env)))).
Proof.
  unfold withTaint. cbv zeta.
  unfold TaintEffectNoSchedule, TaintEffectNoExecute, TaintEffectPreferNoSchedule.
  destruct (decide (taintEffect env = "NoSchedule")) as [E1|N1].
  { left. rewrite <- E1. simpl. auto. }
  destruct (decide (taintEffect env = "NoExecute")) as [E2|N2].
  { left. rewrite <- E2. simpl. auto. }
  destruct (decide (taintEffect env = "PreferNoSchedule")) as [E3|N3].
  { left. rewrite <- E3. simpl. auto. }
  right. split; [|reflexivity]. simpl. intuition congruence.
Qed.

(** X16: the taint option never drops or changes a taint the node
    already has: the old list is a prefix of the new one, at most one
    taint is added, and none when the option returns an error or taints
    are disabled. *)
Theorem withTaint_keeps_taints (env : gmap string string) (disableTaint : bool)
    (taints : list Taint) :
  taints `prefix_of` (withTaint env disableTaint taints).1 /\
  (length (withTaint env disableTaint taints).1 <= S (length taints))%nat /\
  ((withTaint env disableTaint taints).2 <> None ->
     (withTaint env disableTaint taints).1 = taints) /\
  (withTaint env true taints = (taints, None)).
Proof.
  destruct disableTaint.
  - simpl. repeat split; [reflexivity|lia].
  - destruct (withTaint_cases env taints) as [[_ ->] | [_ ->]]; simpl.
    + repeat split; [by apply prefix_app_r|rewrite length_app; simpl; lia|done].
    + repeat split; [reflexivity|lia].
Qed.

(** X17: with taints enabled the option fails exactly when the taint
    effect is none of NoSchedule, NoExecute and PreferNoSchedule, and the
    error names the effect; otherwise it appends one taint made of the
    configured key, value and effect. *)
Theorem withTaint_error_iff (env : gmap string string) (taints : list Taint) :
  ((withTaint env false taints).2 <> None <->
   ~ In (taintEffect env)
       [TaintEffectNoSchedule; TaintEffectNoExecute; TaintEffectPreferNoSchedule]) /\
  ((withTaint env false taints).2 <> None ->
   (withTaint env false taints).2
     = Some (TaintEffectNotSupported (taintEffect env))) /\
  ((withTaint env false taints).2 = None ->
   (withTaint env false taints).1
     = (taints ++ [MkTaint (taintKey env) (taintValue env) (taintEffect env)])%list).
Proof.
  destruct (withTaint_cases env taints) as [[Hin ->] | [Hout ->]]; simpl.
  - repeat split; try done; intros; try contradiction.
  - repeat split; try done; intros; try contradiction.
Qed.

(** X18: a taint variable that is set to the empty string is taken as
    it is, not replaced by its default: with VKUBELET_TAINT_EFFECT set
    and empty the option fails, where with the variable unset it adds a
    NoSchedule taint. *)
Theorem withTaint_empty_effect (env : gmap string string) (taints : list Taint) :
  env !! "VKUBELET_TAINT_EFFECT" = Some EmptyString ->
  withTaint env false taints = (taints, Some (TaintEffectNotSupported EmptyString)) /\
  withTaint (delete "VKUBELET_TAINT_EFFECT" env) false taints
    = ((taints ++ [MkTaint (taintKey env) (taintValue env) "NoSchedule"])%list, None) /\
  Getenv env "VKUBELET_TAINT_EFFECT" = Getenv (delete "VKUBELET_TAINT_EFFECT" env)
                                         "VKUBELET_TAINT_EFFECT".
Proof.
  intros Hset. split; [|split].
  - unfold withTaint, taintEffect, envOrDefault. cbv zeta. rewrite Hset.
    reflexivity.
  - unfold withTaint, taintEffect, taintKey, taintValue, envOrDefault. cbv zeta.
    rewrite lookup_delete_eq.
    rewrite !lookup_delete_ne by discriminate. reflexivity.
  - unfold Getenv. rewrite Hset, lookup_delete_eq. reflexivity.
Qed.

Lemma withTaint_empty_effect_witness :
  sampleEnvEmptyEffect !! "VKUBELET_TAINT_EFFECT" = Some EmptyString /\
  withTaint sampleEnvEmptyEffect false []
    = ([], Some (TaintEffectNotSupported EmptyString)).
Proof.
  assert (H : sampleEnvEmptyEffect !! "VKUBELET_TAINT_EFFECT" = Some EmptyString)
    by (vm_compute; reflexivity).
  split; [exact H|].
  exact (proj1 (withTaint_empty_effect sampleEnvEmptyEffect [] H)).
Defined.

(** ** The lifecycle surface *)

Lemma step_reply_world (c : Call) (w w' : World) : (step c w).1 = (step c w').1.
Proof. destruct c; reflexivity. Qed.

Lemma exec_cons (c : Call) (rest : list Call) (w : World) :
  exec (c :: rest) w = ((step c w).1 :: (exec rest w).1, w).
Proof.
  simpl. pose proof (step_world c w) as Hs.
  destruct (step c w) as [r w1]. simpl in *. subst w1.
  pose proof (exec_world rest w) as He.
  destruct (exec rest w) as [rs w2]. simpl in *. by subst w2.
Qed.

(** X19: the replies to a sequence of calls are the replies to its parts
    put together, and they are the same for every provider and history:
    no call changes what a later call returns. *)
Theorem exec_app (calls1 calls2 : list Call) (w w' : World) :
  exec (calls1 ++ calls2) w = (((exec calls1 w).1 ++ (exec calls2 w).1)%list, w) /\
  (exec calls1 w).1 = (exec calls1 w').1 /\
  (exec calls2 (after calls1 w)).1 = (exec calls2 w').1.
Proof.
  assert (Hindep : forall calls v v', (exec calls v).1 = (exec calls v').1).
  { induction calls as [|c rest IH]; intros v v'; [reflexivity|].
    rewrite !exec_cons. simpl. f_equal; [apply step_reply_world|apply IH]. }
  split; [|split; apply Hindep].
  induction calls1 as [|c rest IH].
  - simpl. destruct (exec calls2 w) as [rs w2] eqn:E.
    pose proof (exec_world calls2 w) as Hw. rewrite E in Hw. simpl in *.
    by subst w2.
  - change ((c :: rest) ++ calls2)%list with (c :: (rest ++ calls2))%list.
    rewrite (exec_cons c (rest ++ calls2)), (exec_cons c rest), IH. reflexivity.
Qed.

(** X20: whatever the calls and the provider, every reply carries a nil
    error and no object: no pod, no status, an empty pod list; there is
    one reply per call. *)
Theorem exec_replies_empty (calls : list Call) (w : World) :
  Forall (fun r => emptyReply r = true) (exec calls w).1 /\
  length (exec calls w).1 = length calls.
Proof.
  split; [|apply exec_length].
  induction calls as [|c rest IH]; [constructor|].
  rewrite exec_cons. simpl. constructor; [|exact IH].
  destruct c; reflexivity.
Qed.
